(** * solution/solution.py: matrix_to_sycamore_operations

    The module holds one function.  It rejects target lists longer than
    four qubits and otherwise chains calls into qiskit and cirq: build a
    circuit from the matrix, transpile it to cx and u3, move it to cirq
    through QASM text, convert it to Sycamore gates, optimise it, and
    return the shorter of the converted and the optimised operation
    lists.

    qiskit, cirq and numpy are not part of the repository.  Their calls
    are kept as visible events of a program tree; what a call answers is
    given by a handler over an arbitrary world.  The theorems hold for
    every handler; the two that speak about the world (C8, C9) say what
    they ask of the libraries. *)

From Stdlib Require Import List ZArith Ascii String Bool Arith Lia.
Import ListNotations.
Local Open Scope string_scope.
Local Open Scope list_scope.

Set Implicit Arguments.

(** ** Qubits *)

(** cirq.GridQubit(row, col): the element type of [target_qubits]. *)
Record GridQubit : Type := mkGridQubit { row : Z; col : Z }.

(** cirq.Qid: what an operation can act on.  Grid qubits are one kind;
    cirq also has named and line qubits. *)
Inductive Qid : Type :=
| Grid (q : GridQubit)
| Named (name : string)
| Line (x : Z).

(** A grid qubit other than [q]. *)
Definition elsewhere (q : Qid) : GridQubit :=
  match q with
  | Grid g => mkGridQubit (row g + 1) (col g)
  | _ => mkGridQubit 0 0
  end.

(** ** Objects owned by the libraries *)

(** The carriers of the values that only the libraries look into. *)
Class Objects : Type := {
  Matrix : Type;            (* numpy.ndarray *)
  QuantumCircuit : Type;    (* qiskit.QuantumCircuit *)
  Circuit : Type;           (* cirq.Circuit *)
  Convertor : Type;         (* cirq.google.ConvertToSycamoreGates *)
  Gate : Type;              (* cirq.Gate *)
  Exn : Type                (* Python exceptions *)
}.

Section Solution.

Context {O : Objects}.

(** cirq.Operation: a gate applied to qubits. *)
Record Operation : Type := mkOperation { gate : Gate; qubits : list Qid }.

(** cirq.OP_TREE as the function builds it: [cirq.Circuit] is given a
    circuit on line 41 and a list of operations on line 46. *)
Inductive OP_TREE : Type :=
| OfCircuit (c : Circuit)
| OfOperations (ops : list Operation).

(** ** Library calls

    One constructor per call that the function body makes, in the order
    of the source; the index is the type of the answer.  [unitary]
    appends to [qc] in place and the body goes on with the same name, so
    the call answers the circuit as it is afterwards. *)
Inductive LibCall : Type -> Type :=
| NewQuantumCircuit (n : nat) : LibCall QuantumCircuit
    (* qiskit.QuantumCircuit(n) *)
| Unitary (qc : QuantumCircuit) (matrix : Matrix) (qargs : list nat)
    : LibCall QuantumCircuit
    (* qc.unitary(matrix, qargs) *)
| Transpile (qc : QuantumCircuit) (basis_gates : list string)
    : LibCall QuantumCircuit
    (* qiskit.transpile(qc, basis_gates=...) *)
| ImportQasmImport : LibCall unit
    (* from cirq.contrib import qasm_import *)
| Qasm (qc : QuantumCircuit) : LibCall string
    (* qc.qasm() *)
| CircuitFromQasm (qasm : string) : LibCall Circuit
    (* qasm_import.circuit_from_qasm(qasm) *)
| NewCircuit (contents : OP_TREE) : LibCall Circuit
    (* cirq.Circuit(contents) *)
| ConvertToSycamoreGates : LibCall Convertor
    (* cirq.google.ConvertToSycamoreGates() *)
| Convert (convertor : Convertor) (qx : Circuit) : LibCall (list Operation)
    (* convertor.convert(qx) *)
| OptimizedForSycamore (qy : Circuit) : LibCall Circuit
    (* cirq.google.optimized_for_sycamore(qy) *)
| AllOperations (qy : Circuit) : LibCall (list Operation).
    (* list(qy.all_operations()) *)

(** ** Programs *)

(** A Python function body that only computes and calls the libraries. *)
Inductive Prog (A : Type) : Type :=
| Return (a : A)
| Vis (X : Type) (e : LibCall X) (k : X -> Prog A).

Arguments Return {A} a.
Arguments Vis {A X} e k.

Fixpoint bind {A B : Type} (p : Prog A) (f : A -> Prog B) : Prog B :=
  match p with
  | Return a => f a
  | Vis e k => Vis e (fun x => bind (k x) f)
  end.

Definition call {X : Type} (e : LibCall X) : Prog X := Vis e (fun x => Return x).

Notation "x <- p ;; q" := (bind p (fun x => q))
  (at level 61, p at next level, right associativity).

(** ** The function *)

(** The first component of the returned pair: Python's [NotImplemented]
    or a list of operations. *)
Inductive Operations : Type :=
| NotImplemented
| Ops (ops : list Operation).

Definition Result : Type := (Operations * list GridQubit)%type.

(** The qubits an operation list acts on. *)
Definition all_qubits (ops : list Operation) : list Qid :=
  flat_map qubits ops.

(** The docstring's promise on the qubits: the returned operations act on
    [target_qubits] and on the ancillas that come back with them. *)
Definition acts_within (target_qubits : list GridQubit) (res : Result) : Prop :=
  match res with
  | (NotImplemented, _) => True
  | (Ops ops, ancillas) =>
      forall q, In q (all_qubits ops) ->
        In q (map Grid target_qubits ++ map Grid ancillas)
  end.

(** Line 50: [ans = qz if len(qy) > len(qz) else qy]. *)
Definition select (qz qy : list Operation) : list Operation :=
  if (List.length qz <? List.length qy)%nat then qz else qy.

Definition matrix_to_sycamore_operations
    (target_qubits : list GridQubit) (matrix : Matrix) : Prog Result :=
  if (4 <? List.length target_qubits)%nat then
    Return (NotImplemented, [])
  else
    qc <- call (NewQuantumCircuit (List.length target_qubits)) ;;
    qc <- call (Unitary qc matrix (seq 0 (List.length target_qubits))) ;;
    qc <- call (Transpile qc ["cx"; "u3"]) ;;
    _ <- call ImportQasmImport ;;
    qasm <- call (Qasm qc) ;;
    c <- call (CircuitFromQasm qasm) ;;
    qx <- call (NewCircuit (OfCircuit c)) ;;
    convertor <- call ConvertToSycamoreGates ;;
    qz <- call (Convert convertor qx) ;;
    qy <- call (NewCircuit (OfOperations qz)) ;;
    qy <- call (OptimizedForSycamore qy) ;;
    qy <- call (AllOperations qy) ;;
    let ans := select qz qy in
    Return (Ops ans, []).

(** ** Running a program against the libraries *)

(** What a call comes back with. *)
Inductive Outcome (A : Type) : Type :=
| Returned (a : A)
| Raised (e : Exn).

Arguments Returned {A} a.
Arguments Raised {A} e.

(** One entry of the call log: the call and its outcome. *)
Inductive Event : Type :=
| Ev (X : Type) (e : LibCall X) (r : Outcome X).

Arguments Ev {X} e r.

Section Exec.

(** Everything outside the function's frame: the Python heap with the
    caller's objects, the state of the library modules, files, streams. *)
Variable World : Type.

Definition Library : Type := forall X : Type, LibCall X -> World -> Outcome X * World.

Record Run (A : Type) : Type := mkRun {
  outcome : Outcome A;
  world : World;
  trace : list Event
}.

Arguments mkRun {A} outcome world trace.

(** The run [r] with [ev] logged in front. *)
Definition logged {A : Type} (ev : Event) (r : Run A) : Run A :=
  mkRun (outcome r) (world r) (ev :: trace r).

(** A raised exception ends the run where it happens: the body has no
    [try], so nothing after the raising call is executed. *)
Fixpoint exec {A : Type} (p : Prog A) (lib : Library) (w : World) : Run A :=
  match p with
  | Return a => mkRun (Returned a) w []
  | Vis e k =>
      match lib _ e w with
      | (Returned x, w') => logged (Ev e (Returned x)) (exec (k x) lib w')
      | (Raised ex, w') => mkRun (Raised ex) w' [Ev e (Raised ex)]
      end
  end.


(** ** The log of a run *)

(** The exception an event ended with, if it did. *)
Definition raised_in (ev : Event) : option Exn :=
  match ev with
  | Ev _ (Raised ex) => Some ex
  | Ev _ (Returned _) => None
  end.


(** The Python name of the callee. *)
Definition callee (ev : Event) : string :=
  match ev with
  | Ev e _ =>
      match e with
      | NewQuantumCircuit _ => "qiskit.QuantumCircuit"
      | Unitary _ _ _ => "QuantumCircuit.unitary"
      | Transpile _ _ => "qiskit.transpile"
      | ImportQasmImport => "cirq.contrib.qasm_import"
      | Qasm _ => "QuantumCircuit.qasm"
      | CircuitFromQasm _ => "qasm_import.circuit_from_qasm"
      | NewCircuit _ => "cirq.Circuit"
      | ConvertToSycamoreGates => "cirq.google.ConvertToSycamoreGates"
      | Convert _ _ => "ConvertToSycamoreGates.convert"
      | OptimizedForSycamore _ => "cirq.google.optimized_for_sycamore"
      | AllOperations _ => "Circuit.all_operations"
      end
  end.

(** The callees of lines 35 to 48 in the order of the source. *)
Definition pipeline : list string :=
  [ "qiskit.QuantumCircuit"; "QuantumCircuit.unitary"; "qiskit.transpile";
    "cirq.contrib.qasm_import"; "QuantumCircuit.qasm";
    "qasm_import.circuit_from_qasm"; "cirq.Circuit";
    "cirq.google.ConvertToSycamoreGates"; "ConvertToSycamoreGates.convert";
    "cirq.Circuit"; "cirq.google.optimized_for_sycamore";
    "Circuit.all_operations" ].

(** The log of a run of lines 35 to 48 in which every call returned. *)
Definition full_trace (n : nat) (matrix : Matrix)
    (qc0 qc1 qc2 : QuantumCircuit) (qasm : string) (c qx : Circuit)
    (convertor : Convertor) (qz : list Operation) (qy0 qy1 : Circuit)
    (qy : list Operation) : list Event :=
  [ Ev (NewQuantumCircuit n) (Returned qc0);
    Ev (Unitary qc0 matrix (seq 0 n)) (Returned qc1);
    Ev (Transpile qc1 ["cx"; "u3"]) (Returned qc2);
    Ev ImportQasmImport (Returned tt);
    Ev (Qasm qc2) (Returned qasm);
    Ev (CircuitFromQasm qasm) (Returned c);
    Ev (NewCircuit (OfCircuit c)) (Returned qx);
    Ev ConvertToSycamoreGates (Returned convertor);
    Ev (Convert convertor qx) (Returned qz);
    Ev (NewCircuit (OfOperations qz)) (Returned qy0);
    Ev (OptimizedForSycamore qy0) (Returned qy1);
    Ev (AllOperations qy1) (Returned qy) ].

(** The matrix and the qubit indices that an event hands to [unitary];
    no other call of the body takes a matrix. *)
Definition handed_matrix (ev : Event) : list (Matrix * list nat) :=
  match ev with
  | Ev e _ =>
      match e with
      | Unitary _ matrix qargs => [(matrix, qargs)]
      | _ => []
      end
  end.

End Exec.

End Solution.

Arguments Return {O A} a.
Arguments Vis {O A X} e k.
Arguments Returned {O A} a.
Arguments Raised {O A} e.
Arguments Ev {O X} e r.
Arguments mkRun {O World A} outcome world trace.

Notation "x <- p ;; q" := (bind p (fun x => q))
  (at level 61, p at next level, right associativity).

(** ** A small stand-in for the libraries

    Enough of qiskit and cirq to run the function on concrete inputs:
    circuits are lists of gate names with their qubits, the QASM text
    keeps one statement per gate, the importer puts the gates on a qubit
    of its own naming, the convertor writes each gate as two native ones
    and the optimiser drops the virtual Z rotations.  The world counts
    the calls served and holds the caller's two objects. *)
Module Toy.

#[export] Instance objects : Objects := {|
  Matrix := list (list Z);
  QuantumCircuit := list (string * list nat);
  Circuit := list (string * list Qid);
  Convertor := unit;
  Gate := string;
  Exn := string
|}.

Record World : Type := mkWorld {
  served : nat;
  caller_list : list GridQubit;
  caller_matrix : list (list Z)
}.

Fixpoint statements (qasm : string) : nat :=
  match qasm with
  | EmptyString => 0
  | String c rest =>
      (if Ascii.eqb c ";"%char then 1 else 0) + statements rest
  end.

Definition answer (X : Type) (e : LibCall X) : Outcome X :=
  match e in LibCall T return Outcome T with
  | NewQuantumCircuit _ => Returned (A := list (string * list nat)) []
  | Unitary qc matrix qargs =>
      if (List.length matrix =? 2 ^ List.length qargs)%nat
      then Returned (qc ++ [("unitary", qargs)])
      else Raised "Input matrix is not the right size"
  | Transpile qc _ =>
      Returned (flat_map (fun g => map (fun q => ("u3", [q])) (snd g)) qc)
  | ImportQasmImport => Returned tt
  | Qasm qc => Returned (String.concat "" (map (fun g => fst g ++ ";")%string qc))
  | CircuitFromQasm qasm =>
      Returned (repeat ("u3", [Named "q_0"]) (statements qasm))
  | NewCircuit (OfCircuit c) => Returned c
  | NewCircuit (OfOperations ops) =>
      Returned (map (fun op => (gate op, qubits op)) ops)
  | ConvertToSycamoreGates => Returned tt
  | Convert _ qx =>
      Returned (flat_map (fun g => [mkOperation (O := objects) "PhX" (snd g);
                                    mkOperation (O := objects) "Z" (snd g)]) qx)
  | OptimizedForSycamore qy =>
      Returned (filter (fun g => negb (String.eqb (fst g) "Z")) qy)
  | AllOperations qy =>
      Returned (map (fun g => mkOperation (O := objects) (fst g) (snd g)) qy)
  end.

Definition lib : Library World :=
  fun X e w =>
    (answer e, mkWorld (S (served w)) (caller_list w) (caller_matrix w)).

Definition q00 : GridQubit := mkGridQubit 0 0.

Definition pauli_x : list (list Z) := [[0; 1]; [1; 0]]%Z.

Definition start : World := mkWorld 0 [q00] pauli_x.

(** Five target qubits, one more than the guard lets through. *)
Definition five : list GridQubit := [q00; q00; q00; q00; q00].

(** What the stand-in returns for Pauli X on one qubit. *)
Definition x_ops : list Operation :=
  [mkOperation (O := objects) "PhX" [Named "q_0"]].

(** The call that raises when a 1 x 1 matrix is given for one qubit. *)
Definition bad_size : Event :=
  Ev (Unitary (O := objects) [] [[1%Z]] [0])
     (Raised "Input matrix is not the right size").

(** A second grid qubit. *)
Definition q01 : GridQubit := mkGridQubit 0 1.


(** *** A classical reading of the round trip

    For permutation matrices: an operation list implements [matrix] on
    [qs] when every basis state, read off the qubits of [qs] with the
    first qubit as the most significant bit, is taken to the basis state
    that the matrix sends it to. *)

Definition same_qubit (a b : Qid) : bool :=
  match a, b with
  | Grid p, Grid q => Z.eqb (row p) (row q) && Z.eqb (col p) (col q)
  | Named x, Named y => String.eqb x y
  | Line x, Line y => Z.eqb x y
  | _, _ => false
  end.

Definition flip (q : Qid) (s : Qid -> bool) : Qid -> bool :=
  fun q' => if same_qubit q q' then negb (s q') else s q'.

Definition apply_op (s : Qid -> bool) (op : Operation) : Qid -> bool :=
  match qubits op with
  | [q] =>
      if String.eqb (gate op) "X" || String.eqb (gate op) "PhX"
      then flip q s else s
  | [c; t] =>
      if String.eqb (gate op) "CX" && s c then flip t s else s
  | _ => s
  end.

Definition apply_ops (ops : list Operation) (s : Qid -> bool) : Qid -> bool :=
  fold_left apply_op ops s.

Definition index (bits : list bool) : nat :=
  fold_left (fun acc (b : bool) => 2 * acc + (if b then 1 else 0)) bits 0.

Definition entry (matrix : list (list Z)) (r c : nat) : Z :=
  nth c (nth r matrix []) 0%Z.

Definition implements (ops : list Operation) (qs : list GridQubit)
    (matrix : list (list Z)) : Prop :=
  forall s : Qid -> bool,
    entry matrix (index (map (apply_ops ops s) (map Grid qs)))
                 (index (map s (map Grid qs))) = 1%Z.

(** CNOT with the first qubit as control. *)
Definition cnot : list (list Z) :=
  [[1; 0; 0; 0]; [0; 1; 0; 0]; [0; 0; 0; 1]; [0; 0; 1; 0]]%Z.

(** What the stand-in returns for [cnot] on two qubits. *)
Definition cnot_ops : list Operation :=
  [mkOperation (O := objects) "PhX" [Named "q_0"];
   mkOperation (O := objects) "PhX" [Named "q_0"]].

(** *** Libraries with effects

    Three variations of the stand-in.  [importing] has the module table
    of the interpreter as its world: the import on line 39 loads the
    module when it is not loaded yet.  [scribbling] writes into the array
    that [unitary] is given.  [drawing] has a transpiler that draws from
    a generator shared by all calls: the world is the number of draws,
    and on an odd draw the transpiled circuit carries one more gate. *)






End Toy.

Section Properties.

Context {O : Objects}.
Variable World : Type.

(** ** Runs of arbitrary programs *)

Lemma exec_call_bind (A X : Type) (e : LibCall X) (k : X -> Prog A)
    (lib : Library World) (w : World) :
  exec (x <- call e ;; k x) lib w =
  match lib _ e w with
  | (Returned x, w') => logged (Ev e (Returned x)) (exec (k x) lib w')
  | (Raised ex, w') => mkRun (Raised ex) w' [Ev e (Raised ex)]
  end.
Proof. reflexivity. Qed.



(** Against libraries that never raise, every program returns. *)
Lemma exec_total (A : Type) (p : Prog A) (lib : Library World) :
  (forall X (e : LibCall X) w, exists x, fst (lib X e w) = Returned x) ->
  forall w, exists a, outcome (exec p lib w) = Returned a.
Proof.
  intros Hlib. induction p as [a | X e k IH]; intros w.
  - now exists a.
  - cbn. destruct (Hlib X e w) as [x Hx].
    destruct (lib X e w) as [[x' | ex] w']; cbn in *; [apply IH | discriminate Hx].
Qed.




(** A call in the log that raised is the last one, and the run raises
    what that call raised. *)
Lemma exec_raise_is_last (A : Type) (p : Prog A) (lib : Library World) (w : World)
    (ev : Event) (ex : Exn) :
  In ev (trace (exec p lib w)) ->
  raised_in ev = Some ex ->
  outcome (exec p lib w) = Raised ex /\
  exists pre,
    trace (exec p lib w) = pre ++ [ev] /\
    Forall (fun ev' => raised_in ev' = None) pre.
Proof.
  revert w. induction p as [a | X e k IH]; intros w Hin Hev.
  - destruct Hin.
  - cbn in *. destruct (lib X e w) as [[x | ex'] w']; cbn in *.
    + destruct Hin as [<- | Hin]; [discriminate Hev | ].
      destruct (IH x w' Hin Hev) as (Hout & pre & Htr & Hpre).
      split; [exact Hout | ].
      exists (Ev e (Returned x) :: pre). rewrite Htr. split; auto.
    + destruct Hin as [<- | []]. cbn in Hev. injection Hev as ->.
      split; [reflexivity | ]. exists []. split; auto.
Qed.

(** ** Runs of the function *)

(** One call of a returning run. *)
Lemma returned_step (A X : Type) (e : LibCall X) (k : X -> Prog A)
    (lib : Library World) (w : World) (a : A) :
  outcome (exec (bind (call e) k) lib w) = Returned a ->
  exists x w',
    outcome (exec (k x) lib w') = Returned a /\
    trace (exec (bind (call e) k) lib w)
      = Ev e (Returned x) :: trace (exec (k x) lib w').
Proof.
  rewrite (exec_call_bind e k). destruct (lib X e w) as [[x | ex] w']; cbn.
  - intros Hout. exists x, w'. split; [exact Hout | reflexivity].
  - intros Hout. discriminate Hout.
Qed.

(** One call of any run. *)
Lemma trace_step (A X : Type) (e : LibCall X) (k : X -> Prog A)
    (lib : Library World) (w : World) :
  (exists ex, trace (exec (bind (call e) k) lib w) = [Ev e (Raised ex)]) \/
  (exists x w',
     trace (exec (bind (call e) k) lib w)
       = Ev e (Returned x) :: trace (exec (k x) lib w')).
Proof.
  rewrite (exec_call_bind e k). destruct (lib X e w) as [[x | ex] w']; cbn.
  - right. exists x, w'. reflexivity.
  - left. exists ex. reflexivity.
Qed.

Ltac returned_call H Hlog :=
  match type of H with
  | outcome (exec (bind (call ?e) ?k) ?lib ?w) = Returned _ =>
      let x := fresh "x" in
      let w' := fresh "w" in
      let Hout := fresh "Hout" in
      let Htr := fresh "Htr" in
      destruct (returned_step e k lib w H) as (x & w' & Hout & Htr);
      rewrite Htr in Hlog; clear Htr H; rename Hout into H;
      cbv beta in H, Hlog
  end.

Ltac any_call Hlog :=
  match type of Hlog with
  | context [trace (exec (bind (call ?e) ?k) ?lib ?w)] =>
      let ex := fresh "ex" in
      let x := fresh "x" in
      let w' := fresh "w" in
      let Htr := fresh "Htr" in
      destruct (trace_step e k lib w) as [[ex Htr] | (x & w' & Htr)];
      rewrite Htr in Hlog; clear Htr; cbv beta in Hlog
  end.

Lemma guard_fires (target_qubits : list GridQubit) (matrix : Matrix) :
  4 < List.length target_qubits ->
  matrix_to_sycamore_operations target_qubits matrix = Return (NotImplemented, []).
Proof.
  intros Hn. unfold matrix_to_sycamore_operations.
  apply Nat.ltb_lt in Hn. now rewrite Hn.
Qed.

(** The body reads [target_qubits] through [len] alone. *)
Lemma only_the_length (qs qs' : list GridQubit) (matrix : Matrix) :
  List.length qs = List.length qs' ->
  matrix_to_sycamore_operations qs matrix = matrix_to_sycamore_operations qs' matrix.
Proof.
  intros Hlen. unfold matrix_to_sycamore_operations. now rewrite Hlen.
Qed.

(** A returning run below the guard made the twelve calls of lines 35 to
    48, each on the answers of the earlier ones, and returns the selected
    list with no ancilla. *)
Lemma returning_run (lib : Library World) (w : World)
    (target_qubits : list GridQubit) (matrix : Matrix) (res : Result) :
  List.length target_qubits <= 4 ->
  outcome (exec (matrix_to_sycamore_operations target_qubits matrix) lib w)
    = Returned res ->
  exists qc0 qc1 qc2 qasm c qx convertor qz qy0 qy1 qy,
    trace (exec (matrix_to_sycamore_operations target_qubits matrix) lib w)
      = full_trace (List.length target_qubits) matrix
          qc0 qc1 qc2 qasm c qx convertor qz qy0 qy1 qy /\
    res = (Ops (select qz qy), []).
Proof.
  intros Hn Hout. unfold matrix_to_sycamore_operations, Result in *.
  apply Nat.ltb_ge in Hn. rewrite Hn in *. cbv zeta in *.
  match goal with
  | |- context [trace ?r] => remember (trace r) as log eqn:Hlog
  end.
  do 12 returned_call Hout Hlog.
  cbn in Hout, Hlog. injection Hout as <-. subst log.
  match goal with u : unit |- _ => destruct u end.
  do 11 eexists. split; reflexivity.
Qed.

(** Whatever the libraries answer, the calls made below the guard are an
    initial part of the pipeline. *)
Lemma run_prefix (lib : Library World) (w : World)
    (target_qubits : list GridQubit) (matrix : Matrix) :
  List.length target_qubits <= 4 ->
  exists rest,
    map callee (trace (exec (matrix_to_sycamore_operations target_qubits matrix) lib w))
      ++ rest = pipeline.
Proof.
  intros Hn. unfold matrix_to_sycamore_operations, Result.
  apply Nat.ltb_ge in Hn. rewrite Hn. cbv zeta.
  match goal with
  | |- context [trace ?r] => remember (trace r) as log eqn:Hlog
  end.
  do 12 (any_call Hlog; [subst log; eexists; reflexivity | ]).
  subst log. exists []. reflexivity.
Qed.

(** Both return statements build the second component as [[]]. *)
Lemma returned_ancillas (lib : Library World) (w : World)
    (target_qubits : list GridQubit) (matrix : Matrix)
    (r : Operations) (ancillas : list GridQubit) :
  outcome (exec (matrix_to_sycamore_operations target_qubits matrix) lib w)
    = Returned (r, ancillas) ->
  ancillas = [].
Proof.
  intros Hout.
  destruct (Nat.lt_ge_cases 4 (List.length target_qubits)) as [Hn | Hn].
  - rewrite (guard_fires _ matrix Hn) in Hout. cbn in Hout. congruence.
  - destruct (returning_run _ _ _ _ Hn Hout)
      as (? & ? & ? & ? & ? & ? & ? & ? & ? & ? & ? & _ & Hres).
    congruence.
Qed.

Lemma select_le (qz qy : list Operation) :
  List.length (select qz qy) <= List.length qz /\
  List.length (select qz qy) <= List.length qy.
Proof.
  unfold select. destruct (List.length qz <? List.length qy)%nat eqn:Hlt.
  - apply Nat.ltb_lt in Hlt. lia.
  - apply Nat.ltb_ge in Hlt. lia.
Qed.

(** Against libraries that never raise, the function returns. *)
Lemma returns_when_the_libraries_return (lib : Library World)
    (target_qubits : list GridQubit) (matrix : Matrix) :
  (forall X (e : LibCall X) w, exists x, fst (lib X e w) = Returned x) ->
  forall w, exists res,
    outcome (exec (matrix_to_sycamore_operations target_qubits matrix) lib w)
      = Returned res.
Proof.
  intros Hlib. now apply exec_total.
Qed.


Lemma elsewhere_differs (q : Qid) : Grid (elsewhere q) <> q.
Proof.
  destruct q as [g | name | x]; cbn; try discriminate.
  destruct g as [r c]. cbn. intros H. injection H as Hr. lia.
Qed.


(** ** The claims *)

(** C1.  The round trip promised by the docstring fails in the code.  Let
    [implements ops qs m] be any reading of "the operations [ops], on the
    qubits [qs] in this order, have the unitary [m] up to the tolerance".
    The body reads [target_qubits] through [len] alone, so two target
    lists of one length get the same operations.  Hence, for a matrix
    that no operation list implements on both of two such lists, as it
    is for CNOT on [a; b] and on [b; a], a returning call returns
    operations that fail the round trip on one of the two. *)
Theorem round_trip_ignores_the_qubit_order
    (implements : list Operation -> list GridQubit -> Matrix -> Prop)
    (lib : Library World) (w : World)
    (target_qubits others : list GridQubit) (matrix : Matrix)
    (ops : list Operation) (ancillas : list GridQubit) :
  List.length target_qubits = List.length others ->
  (forall ops', implements ops' target_qubits matrix ->
                implements ops' others matrix -> False) ->
  outcome (exec (matrix_to_sycamore_operations target_qubits matrix) lib w)
    = Returned (Ops ops, ancillas) ->
  outcome (exec (matrix_to_sycamore_operations others matrix) lib w)
    = Returned (Ops ops, ancillas) /\
  ~ (implements ops target_qubits matrix /\ implements ops others matrix).
Proof.
  intros Hlen Hsens Hout. split.
  - now rewrite <- (only_the_length _ _ matrix Hlen).
  - intros [H1 H2]. exact (Hsens ops H1 H2).
Qed.

(** C2.  For a target list of more than four qubits the function returns
    [NotImplemented] paired with the empty ancilla list, whatever the
    matrix is, and it does so at once: the log of library calls is empty
    and the world is the one the call started in. *)
Theorem size_guard_returns_sentinel (lib : Library World) (w : World)
    (target_qubits : list GridQubit) (matrix : Matrix) :
  4 < List.length target_qubits ->
  exec (matrix_to_sycamore_operations target_qubits matrix) lib w
    = mkRun (Returned (NotImplemented, [])) w [].
Proof.
  intros Hn. now rewrite (guard_fires _ matrix Hn).
Qed.

(** C3.  For at most four target qubits, a returning call returns one of
    two lists: [qz], the answer of the convertor, or [qy], the operations
    of the circuit that the optimiser made from [qz].  It returns [qz]
    when [qy] is strictly longer and [qy] otherwise, so a tie goes to the
    optimised list, and the returned list is never longer than the
    converted one. *)
Theorem shorter_list_is_returned (lib : Library World) (w : World)
    (target_qubits : list GridQubit) (matrix : Matrix)
    (r : Operations) (ancillas : list GridQubit) :
  List.length target_qubits <= 4 ->
  outcome (exec (matrix_to_sycamore_operations target_qubits matrix) lib w)
    = Returned (r, ancillas) ->
  exists pre convertor qx qz qy0 qy1 qy ops,
    trace (exec (matrix_to_sycamore_operations target_qubits matrix) lib w)
      = pre ++ [ Ev (Convert convertor qx) (Returned qz);
                 Ev (NewCircuit (OfOperations qz)) (Returned qy0);
                 Ev (OptimizedForSycamore qy0) (Returned qy1);
                 Ev (AllOperations qy1) (Returned qy) ] /\
    r = Ops ops /\
    (List.length qz < List.length qy -> ops = qz) /\
    (List.length qy <= List.length qz -> ops = qy) /\
    List.length ops <= List.length qz /\
    List.length ops <= List.length qy.
Proof.
  intros Hn Hout.
  destruct (returning_run _ _ _ _ Hn Hout)
    as (qc0 & qc1 & qc2 & qasm & c & qx & convertor & qz & qy0 & qy1 & qy
        & Htr & Hres).
  injection Hres as -> ->.
  exists [ Ev (NewQuantumCircuit (List.length target_qubits)) (Returned qc0);
           Ev (Unitary qc0 matrix (seq 0 (List.length target_qubits))) (Returned qc1);
           Ev (Transpile qc1 ["cx"; "u3"]) (Returned qc2);
           Ev ImportQasmImport (Returned tt);
           Ev (Qasm qc2) (Returned qasm);
           Ev (CircuitFromQasm qasm) (Returned c);
           Ev (NewCircuit (OfCircuit c)) (Returned qx);
           Ev ConvertToSycamoreGates (Returned convertor) ].
  exists convertor, qx, qz, qy0, qy1, qy, (select qz qy).
  split; [exact Htr | ]. split; [reflexivity | ].
  pose proof (select_le qz qy) as [Hqz Hqy].
  repeat split; trivial; unfold select; intros Hlen.
  - apply Nat.ltb_lt in Hlen. now rewrite Hlen.
  - apply Nat.ltb_ge in Hlen. now rewrite Hlen.
Qed.

(** C4.  The claim that the returned operations act on the caller's
    qubits fails in the code.  The body reads [target_qubits] through
    [len] alone, so the operations are the same for every target list of
    one length: as soon as a returned list acts on some qubit [q], a
    target list of the same length without [q] gets the very same run,
    and its operations act outside that list and the (empty) ancillas. *)
Theorem operations_ignore_the_target_qubits (lib : Library World) (w : World)
    (target_qubits : list GridQubit) (matrix : Matrix)
    (ops : list Operation) (ancillas : list GridQubit) (q : Qid) :
  outcome (exec (matrix_to_sycamore_operations target_qubits matrix) lib w)
    = Returned (Ops ops, ancillas) ->
  In q (all_qubits ops) ->
  exists others,
    List.length others = List.length target_qubits /\
    exec (matrix_to_sycamore_operations others matrix) lib w
      = exec (matrix_to_sycamore_operations target_qubits matrix) lib w /\
    ~ acts_within others (Ops ops, ancillas).
Proof.
  intros Hout Hq.
  exists (repeat (elsewhere q) (List.length target_qubits)).
  assert (Hlen : List.length (repeat (elsewhere q) (List.length target_qubits))
                 = List.length target_qubits) by apply repeat_length.
  split; [exact Hlen | ].
  split; [now rewrite (only_the_length _ _ matrix Hlen) | ].
  rewrite (returned_ancillas _ _ _ _ Hout).
  intros Hin. specialize (Hin q Hq). cbn in Hin. rewrite app_nil_r in Hin.
  apply in_map_iff in Hin as (g & Hg & Hrep).
  apply repeat_spec in Hrep. subst g.
  exact (elsewhere_differs Hg).
Qed.

(** C5.  Whenever the function returns a pair, on the path of the size
    guard as on the path through the libraries, the second component is
    the empty list: no ancilla qubit is allocated. *)
Theorem ancilla_list_is_empty (lib : Library World) (w : World)
    (target_qubits : list GridQubit) (matrix : Matrix)
    (r : Operations) (ancillas : list GridQubit) :
  outcome (exec (matrix_to_sycamore_operations target_qubits matrix) lib w)
    = Returned (r, ancillas) ->
  ancillas = [].
Proof.
  apply returned_ancillas.
Qed.

(** C6.  For at most four target qubits the calls are made in the order
    of the pipeline: whatever the libraries answer, the callees in the
    log are an initial part of it, and in a returning run the log is the
    whole pipeline with every call fed the answer of its predecessor:
    the circuit of width [n] gets the matrix on qubits [0..n-1], is
    transpiled to cx and u3, printed as QASM, parsed by cirq, converted,
    and the optimiser gets the circuit built from the convertor's
    answer. *)
Theorem pipeline_order (lib : Library World) (w : World)
    (target_qubits : list GridQubit) (matrix : Matrix) :
  List.length target_qubits <= 4 ->
  (exists rest,
     map callee (trace (exec (matrix_to_sycamore_operations target_qubits matrix) lib w))
       ++ rest = pipeline) /\
  (forall res,
     outcome (exec (matrix_to_sycamore_operations target_qubits matrix) lib w)
       = Returned res ->
     exists qc0 qc1 qc2 qasm c qx convertor qz qy0 qy1 qy,
       trace (exec (matrix_to_sycamore_operations target_qubits matrix) lib w)
         = [ Ev (NewQuantumCircuit (List.length target_qubits)) (Returned qc0);
             Ev (Unitary qc0 matrix (seq 0 (List.length target_qubits)))
                (Returned qc1);
             Ev (Transpile qc1 ["cx"; "u3"]) (Returned qc2);
             Ev ImportQasmImport (Returned tt);
             Ev (Qasm qc2) (Returned qasm);
             Ev (CircuitFromQasm qasm) (Returned c);
             Ev (NewCircuit (OfCircuit c)) (Returned qx);
             Ev ConvertToSycamoreGates (Returned convertor);
             Ev (Convert convertor qx) (Returned qz);
             Ev (NewCircuit (OfOperations qz)) (Returned qy0);
             Ev (OptimizedForSycamore qy0) (Returned qy1);
             Ev (AllOperations qy1) (Returned qy) ]).
Proof.
  intros Hn. split; [now apply run_prefix | ].
  intros res Hout.
  destruct (returning_run _ _ _ _ Hn Hout)
    as (qc0 & qc1 & qc2 & qasm & c & qx & convertor & qz & qy0 & qy1 & qy
        & Htr & _).
  exists qc0, qc1, qc2, qasm, c, qx, convertor, qz, qy0, qy1, qy. exact Htr.
Qed.

(** C7.  When a library call of a run raises an exception, the function
    raises that same exception: the raising call is the last entry of the
    log, so nothing runs after it, every call before it returned, and the
    callees of the log are an initial part of the pipeline, so no call is
    made a second time. *)
Theorem library_exception_propagates (lib : Library World) (w : World)
    (target_qubits : list GridQubit) (matrix : Matrix)
    (ev : Event) (ex : Exn) :
  In ev (trace (exec (matrix_to_sycamore_operations target_qubits matrix) lib w)) ->
  raised_in ev = Some ex ->
  outcome (exec (matrix_to_sycamore_operations target_qubits matrix) lib w)
    = Raised ex /\
  (exists pre,
     trace (exec (matrix_to_sycamore_operations target_qubits matrix) lib w)
       = pre ++ [ev] /\
     Forall (fun ev' => raised_in ev' = None) pre) /\
  (exists rest,
     map callee (trace (exec (matrix_to_sycamore_operations target_qubits matrix) lib w))
       ++ rest = pipeline).
Proof.
  intros Hin Hev.
  destruct (exec_raise_is_last _ _ _ _ Hin Hev) as [Hout Hlast].
  repeat split; trivial.
  destruct (Nat.lt_ge_cases 4 (List.length target_qubits)) as [Hn | Hn].
  - rewrite (guard_fires _ matrix Hn) in Hin. destruct Hin.
  - now apply run_prefix.
Qed.



(** C10.  [NotImplemented] comes back only for more than four target
    qubits.  For the empty target list the guard does not fire: the first
    thing the function does is to ask qiskit for a circuit of width 0,
    and a returning run went through the whole pipeline, with the matrix
    applied to no qubit, and returns a list of operations. *)
Theorem sentinel_only_above_four (lib : Library World) (w : World)
    (matrix : Matrix) :
  (forall target_qubits ancillas,
     outcome (exec (matrix_to_sycamore_operations target_qubits matrix) lib w)
       = Returned (NotImplemented, ancillas) ->
     4 < List.length target_qubits) /\
  (exists r rest,
     trace (exec (matrix_to_sycamore_operations [] matrix) lib w)
       = Ev (NewQuantumCircuit 0) r :: rest) /\
  (forall res,
     outcome (exec (matrix_to_sycamore_operations [] matrix) lib w)
       = Returned res ->
     exists qc0 qc1 qc2 qasm c qx convertor qz qy0 qy1 qy,
       trace (exec (matrix_to_sycamore_operations [] matrix) lib w)
         = full_trace 0 matrix qc0 qc1 qc2 qasm c qx convertor qz qy0 qy1 qy /\
       res = (Ops (select qz qy), [])).
Proof.
  split; [ | split].
  - intros target_qubits ancillas Hout.
    destruct (Nat.lt_ge_cases 4 (List.length target_qubits)) as [Hn | Hn];
      [exact Hn | ].
    destruct (returning_run _ _ _ _ Hn Hout)
      as (? & ? & ? & ? & ? & ? & ? & ? & ? & ? & ? & _ & Hres).
    discriminate Hres.
  - unfold matrix_to_sycamore_operations, Result. cbn [List.length Nat.ltb Nat.leb].
    match goal with
    | |- context [trace (exec (bind (call ?e) ?k) ?l ?w0)] =>
        destruct (trace_step e k l w0) as [[ex ->] | (x & w' & ->)]
    end.
    + now exists (Raised ex), [].
    + now eexists (Returned x), _.
  - intros res Hout.
    apply (returning_run lib w [] matrix); [cbn; lia | exact Hout].
Qed.

(** ** Further properties of the function *)

(** Below the guard the first thing a run does is the call
    [qiskit.QuantumCircuit(len(target_qubits))]. *)
Lemma first_call (lib : Library World) (w : World)
    (target_qubits : list GridQubit) (matrix : Matrix) :
  List.length target_qubits <= 4 ->
  exists r rest,
    trace (exec (matrix_to_sycamore_operations target_qubits matrix) lib w)
      = Ev (NewQuantumCircuit (List.length target_qubits)) r :: rest.
Proof.
  intros Hn. unfold matrix_to_sycamore_operations, Result.
  apply Nat.ltb_ge in Hn. rewrite Hn.
  match goal with
  | |- context [trace (exec (bind (call ?e) ?k) ?l ?w0)] =>
      destruct (trace_step e k l w0) as [[ex ->] | (x & w' & ->)]
  end.
  - now exists (Raised ex), [].
  - now eexists (Returned x), _.
Qed.

(** X2.  The threshold is exactly four.  The libraries are not called at
    all if and only if the target list has more than four qubits, and
    this is also exactly when [NotImplemented] comes back; with four
    qubits or fewer, the empty list included, the first call is
    [qiskit.QuantumCircuit(len(target_qubits))], whatever the matrix. *)
Theorem guard_threshold (lib : Library World) (w : World)
    (target_qubits : list GridQubit) (matrix : Matrix) :
  (trace (exec (matrix_to_sycamore_operations target_qubits matrix) lib w) = []
     <-> 4 < List.length target_qubits) /\
  (outcome (exec (matrix_to_sycamore_operations target_qubits matrix) lib w)
     = Returned (NotImplemented, [])
     <-> 4 < List.length target_qubits) /\
  (List.length target_qubits <= 4 ->
   exists r rest,
     trace (exec (matrix_to_sycamore_operations target_qubits matrix) lib w)
       = Ev (NewQuantumCircuit (List.length target_qubits)) r :: rest).
Proof.
  destruct (Nat.lt_ge_cases 4 (List.length target_qubits)) as [Hn | Hn].
  - rewrite (guard_fires _ matrix Hn). cbn.
    repeat split; trivial. intros Hle. lia.
  - destruct (first_call lib w _ matrix Hn) as (r & rest & Htr).
    split; [ | split].
    + split; intros H; [rewrite Htr in H; discriminate H | lia].
    + split; intros H; [ | lia].
      destruct (returning_run _ _ _ _ Hn H)
        as (? & ? & ? & ? & ? & ? & ? & ? & ? & ? & ? & _ & Hres).
      discriminate Hres.
    + intros _. now exists r, rest.
Qed.

(** X3.  The matrix is never looked into by the body and reaches the
    libraries once: in every run of at most four qubits, unless the very
    first call [qiskit.QuantumCircuit(n)] raised, exactly one logged call
    takes a matrix, it is [unitary], and it gets the caller's matrix as
    it is on the qubit indices [0, 1, ..., n-1] in ascending order. *)
Theorem matrix_goes_to_unitary_once (lib : Library World) (w : World)
    (target_qubits : list GridQubit) (matrix : Matrix) :
  List.length target_qubits <= 4 ->
  flat_map handed_matrix
      (trace (exec (matrix_to_sycamore_operations target_qubits matrix) lib w))
    = [(matrix, seq 0 (List.length target_qubits))] \/
  exists ex,
    trace (exec (matrix_to_sycamore_operations target_qubits matrix) lib w)
      = [Ev (NewQuantumCircuit (List.length target_qubits)) (Raised ex)].
Proof.
  intros Hn. unfold matrix_to_sycamore_operations, Result.
  apply Nat.ltb_ge in Hn. rewrite Hn. cbv zeta.
  match goal with
  | |- context [trace ?r] => remember (trace r) as log eqn:Hlog
  end.
  any_call Hlog; [right; subst log; eexists; reflexivity | ].
  do 11 (any_call Hlog; [left; subst log; reflexivity | ]).
  left. subst log. reflexivity.
Qed.

(** X4.  The run depends on [target_qubits] through its length alone:
    two target lists of one length, be they reorderings of one another
    or made of other qubits, give the same outcome, the same log of
    library calls and the same final world. *)
Theorem run_depends_on_the_length_only (lib : Library World) (w : World)
    (target_qubits others : list GridQubit) (matrix : Matrix) :
  List.length target_qubits = List.length others ->
  exec (matrix_to_sycamore_operations target_qubits matrix) lib w
    = exec (matrix_to_sycamore_operations others matrix) lib w.
Proof.
  intros Hlen. now rewrite (only_the_length _ _ matrix Hlen).
Qed.

(** X5.  An invocation makes at most twelve library calls, and one that
    returns made either none of them (more than four qubits) or all
    twelve: no stage of the pipeline is skipped and none is run twice. *)
Theorem number_of_library_calls (lib : Library World) (w : World)
    (target_qubits : list GridQubit) (matrix : Matrix) :
  List.length
    (trace (exec (matrix_to_sycamore_operations target_qubits matrix) lib w)) <= 12 /\
  (forall res,
     outcome (exec (matrix_to_sycamore_operations target_qubits matrix) lib w)
       = Returned res ->
     List.length
       (trace (exec (matrix_to_sycamore_operations target_qubits matrix) lib w))
       = if (4 <? List.length target_qubits)%nat then 0 else 12).
Proof.
  destruct (Nat.lt_ge_cases 4 (List.length target_qubits)) as [Hn | Hn].
  - rewrite (proj2 (Nat.ltb_lt _ _) Hn), (guard_fires _ matrix Hn).
    split; [cbn; lia | reflexivity].
  - rewrite (proj2 (Nat.ltb_ge _ _) Hn). split.
    + destruct (run_prefix lib w _ matrix Hn) as [rest Hpre].
      apply (f_equal (@List.length string)) in Hpre.
      rewrite length_app, length_map in Hpre. cbn in Hpre. lia.
    + intros res Hout.
      destruct (returning_run _ _ _ _ Hn Hout)
        as (? & ? & ? & ? & ? & ? & ? & ? & ? & ? & ? & Htr & _).
      rewrite Htr. reflexivity.
Qed.

End Properties.

(** ** The claims on runs against the stand-in *)

Import Toy.

(** No operation list implements CNOT both with [q00] and with [q01] as
    the control: from the state where only [q00] is set, the first asks
    for [q01] set afterwards and the second for [q01] clear. *)
Lemma cnot_is_order_sensitive (ops : list Operation) :
  implements ops [q00; q01] cnot -> implements ops [q01; q00] cnot -> False.
Proof.
  intros H1 H2.
  specialize (H1 (same_qubit (Grid q00))).
  specialize (H2 (same_qubit (Grid q00))).
  cbn [map] in H1, H2.
  destruct (apply_ops ops (same_qubit (Grid q00)) (Grid q00));
    destruct (apply_ops ops (same_qubit (Grid q00)) (Grid q01));
    vm_compute in H1, H2; discriminate.
Qed.

Lemma round_trip_ignores_the_qubit_order_witness :
  outcome (exec (matrix_to_sycamore_operations [q01; q00] cnot) lib start)
    = Returned (Ops cnot_ops, []) /\
  ~ (implements cnot_ops [q00; q01] cnot /\ implements cnot_ops [q01; q00] cnot).
Proof.
  apply (@round_trip_ignores_the_qubit_order objects World implements lib start
           [q00; q01] [q01; q00] cnot cnot_ops []).
  - reflexivity.
  - exact cnot_is_order_sensitive.
  - reflexivity.
Defined.

Lemma size_guard_returns_sentinel_witness :
  4 < List.length five /\
  exec (matrix_to_sycamore_operations five pauli_x) lib start
    = mkRun (Returned (NotImplemented, [])) start [].
Proof.
  split; [cbn; lia | ].
  apply size_guard_returns_sentinel. cbn; lia.
Defined.

Lemma shorter_list_is_returned_witness :
  exists pre convertor qx qz qy0 qy1 qy ops,
    trace (exec (matrix_to_sycamore_operations [q00] pauli_x) lib start)
      = pre ++ [ Ev (Convert convertor qx) (Returned qz);
                 Ev (NewCircuit (OfOperations qz)) (Returned qy0);
                 Ev (OptimizedForSycamore qy0) (Returned qy1);
                 Ev (AllOperations qy1) (Returned qy) ] /\
    Ops x_ops = Ops ops /\
    (List.length qz < List.length qy -> ops = qz) /\
    (List.length qy <= List.length qz -> ops = qy) /\
    List.length ops <= List.length qz /\
    List.length ops <= List.length qy.
Proof.
  apply (@shorter_list_is_returned objects World lib start [q00] pauli_x
           (Ops x_ops) []).
  - cbn; lia.
  - reflexivity.
Defined.

Lemma operations_ignore_the_target_qubits_witness :
  exists others,
    List.length others = List.length [q00] /\
    exec (matrix_to_sycamore_operations others pauli_x) lib start
      = exec (matrix_to_sycamore_operations [q00] pauli_x) lib start /\
    ~ acts_within others (Ops x_ops, []).
Proof.
  apply (@operations_ignore_the_target_qubits objects World lib start
           [q00] pauli_x x_ops [] (Named "q_0")).
  - reflexivity.
  - left; reflexivity.
Defined.

(** On the stand-in, Pauli X for the target [GridQubit(0, 0)] comes back
    as one operation on the importer's qubit [q_0], which is not in the
    target list. *)
Example x_gate_misses_the_target :
  outcome (exec (matrix_to_sycamore_operations [q00] pauli_x) lib start)
    = Returned (Ops x_ops, []) /\
  ~ acts_within [q00] (Ops x_ops, []).
Proof.
  split; [reflexivity | ].
  intros Hin. specialize (Hin (Named "q_0") (or_introl eq_refl)).
  cbn in Hin. destruct Hin as [Hin | []]. discriminate Hin.
Qed.

Lemma ancilla_list_is_empty_witness :
  outcome (exec (matrix_to_sycamore_operations [q00] pauli_x) lib start)
    = Returned (Ops x_ops, []) /\
  @nil GridQubit = [].
Proof.
  split; [reflexivity | ].
  apply (@ancilla_list_is_empty objects World lib start [q00] pauli_x
           (Ops x_ops) []).
  reflexivity.
Defined.

Lemma pipeline_order_witness :
  (exists rest,
     map callee (trace (exec (matrix_to_sycamore_operations [q00] pauli_x) lib start))
       ++ rest = pipeline) /\
  (forall res,
     outcome (exec (matrix_to_sycamore_operations [q00] pauli_x) lib start)
       = Returned res ->
     exists qc0 qc1 qc2 qasm c qx convertor qz qy0 qy1 qy,
       trace (exec (matrix_to_sycamore_operations [q00] pauli_x) lib start)
         = [ Ev (NewQuantumCircuit (List.length [q00])) (Returned qc0);
             Ev (Unitary qc0 pauli_x (seq 0 (List.length [q00]))) (Returned qc1);
             Ev (Transpile qc1 ["cx"; "u3"]) (Returned qc2);
             Ev ImportQasmImport (Returned tt);
             Ev (Qasm qc2) (Returned qasm);
             Ev (CircuitFromQasm qasm) (Returned c);
             Ev (NewCircuit (OfCircuit c)) (Returned qx);
             Ev ConvertToSycamoreGates (Returned convertor);
             Ev (Convert convertor qx) (Returned qz);
             Ev (NewCircuit (OfOperations qz)) (Returned qy0);
             Ev (OptimizedForSycamore qy0) (Returned qy1);
             Ev (AllOperations qy1) (Returned qy) ]).
Proof.
  apply (@pipeline_order objects World lib start [q00] pauli_x).
  cbn; lia.
Defined.

Lemma library_exception_propagates_witness :
  outcome (exec (matrix_to_sycamore_operations [q00] [[1%Z]]) lib start)
    = Raised "Input matrix is not the right size" /\
  (exists pre,
     trace (exec (matrix_to_sycamore_operations [q00] [[1%Z]]) lib start)
       = pre ++ [bad_size] /\
     Forall (fun ev' => raised_in ev' = None) pre) /\
  (exists rest,
     map callee (trace (exec (matrix_to_sycamore_operations [q00] [[1%Z]]) lib start))
       ++ rest = pipeline).
Proof.
  apply (@library_exception_propagates objects World lib start [q00] [[1%Z]]
           bad_size "Input matrix is not the right size").
  - right; left; reflexivity.
  - reflexivity.
Defined.





Lemma sentinel_only_above_four_witness :
  4 < List.length five.
Proof.
  apply (proj1 (@sentinel_only_above_four objects World lib start pauli_x) five []).
  reflexivity.
Defined.

(** ** The further properties on runs against the stand-in *)

Lemma guard_threshold_witness :
  exists r rest,
    trace (exec (matrix_to_sycamore_operations [q00; q01; q00; q01] pauli_x)
             lib start)
      = Ev (NewQuantumCircuit (List.length [q00; q01; q00; q01])) r :: rest.
Proof.
  apply (proj2 (proj2 (@guard_threshold objects World lib start
                         [q00; q01; q00; q01] pauli_x))).
  cbn; lia.
Defined.

Lemma matrix_goes_to_unitary_once_witness :
  flat_map handed_matrix
      (trace (exec (matrix_to_sycamore_operations [q00] pauli_x) lib start))
    = [(pauli_x, seq 0 (List.length [q00]))] \/
  exists ex,
    trace (exec (matrix_to_sycamore_operations [q00] pauli_x) lib start)
      = [Ev (NewQuantumCircuit (List.length [q00])) (Raised ex)].
Proof.
  apply (@matrix_goes_to_unitary_once objects World lib start [q00] pauli_x).
  cbn; lia.
Defined.

Lemma run_depends_on_the_length_only_witness :
  exec (matrix_to_sycamore_operations [q00; q01] pauli_x) lib start
    = exec (matrix_to_sycamore_operations [q01; q00] pauli_x) lib start.
Proof.
  apply (@run_depends_on_the_length_only objects World lib start
           [q00; q01] [q01; q00] pauli_x).
  reflexivity.
Defined.

Lemma number_of_library_calls_witness :
  List.length
    (trace (exec (matrix_to_sycamore_operations [q00] pauli_x) lib start)) = 12.
Proof.
  apply (proj2 (@number_of_library_calls objects World lib start [q00] pauli_x)
           (Ops x_ops, [])).
  reflexivity.
Defined.
